(** * pkg/openshift/rosa/hcpvpc.go: the hosted-control-plane VPC workflow

    A shallow embedding of [createHostedControlPlaneVPC],
    [deleteHostedControlPlaneVPC], [copyFile] and [hcpVPCError], and the
    properties of the workflow that the specification states.

    The terraform runner, the asset file system, the files of the operating
    system and the logger are collaborators of the code.  They are an
    interface ([Tool]) over an arbitrary world state, which also stands for
    the [context.Context] that every call is handed; each call the workflow
    makes is recorded in a trace, with its arguments and the error it
    returned.  The properties hold for every implementation of the
    interface; [Mock] is one to run the workflow on.  A panic of a
    collaborator is not modelled. *)

From Stdlib Require Import Ascii.
From stdpp Require Import base option list strings gmap.

(** ** Go values *)

(** The byte 0x22, the double-quote character. *)
Definition dquote : ascii := "034"%char.

(** A non-nil value of Go's [error] interface.  [errorString] is what
    [errors.New] and [fmt.Errorf] without [%w] build, [wrapError] what
    [fmt.Errorf] with one [%w] builds, and [hcpVPCError] is the struct of the
    source, whose [err] field is itself an interface value and may be nil.
    The errors of the collaborators are of types of their own; the workflow
    reads nothing but their message, so [errorString] stands for them. *)
#[warnings="-register-all"]
Inductive err_value : Type :=
  | errorString (s : string)
  | wrapError (msg : string) (err : err_value)
  | hcpVPCError (action : string) (err : option err_value).

(** Go's [error]: nil or a value. *)
Abbreviation error := (option err_value).

(** The [Error] methods; for [hcpVPCError] it is
    [fmt.Sprintf("%s hcp cluster vpc failed: %v", h.action, h.err)], and [%v]
    prints a nil interface as [<nil>]. *)
Fixpoint Error (e : err_value) : string :=
  match e with
  | errorString s => s
  | wrapError msg _ => msg
  | hcpVPCError action err =>
      action +:+ " hcp cluster vpc failed: " +:+
      match err with Some e' => Error e' | None => "<nil>" end
  end.

(** The verb [%v] applied to an [error]. *)
Definition fmt_v (err : error) : string :=
  match err with Some e => Error e | None => "<nil>" end.

(** [fmt.Errorf(prefix + "%v", err)]: no [%w], so the result is
    [errors.New] of the formatted text. *)
Definition Errorf_v (prefix : string) (err : error) : err_value :=
  errorString (prefix +:+ fmt_v err).

(** [fmt.Errorf(prefix + "%w", err)] with a non-nil [err]. *)
Definition Errorf_w (prefix : string) (err : err_value) : err_value :=
  wrapError (prefix +:+ Error err) err.

(** [strings.HasPrefix]. *)
Fixpoint HasPrefix (s prefix : string) : bool :=
  match prefix, s with
  | EmptyString, _ => true
  | String _ _, EmptyString => false
  | String p prefix', String c s' => Ascii.eqb c p && HasPrefix s' prefix'
  end.

(** The scan of [strings.Replace] with [n < 0]: the leftmost occurrence of
    a non-empty [old] is replaced and the scan resumes behind it; [skip]
    counts the bytes of a matched [old] that are still to be dropped. *)
Fixpoint replace_from (old new : string) (skip : nat) (s : string) : string :=
  match s with
  | EmptyString => EmptyString
  | String c s' =>
      match skip with
      | S k => replace_from old new k s'
      | O =>
          if HasPrefix s old
          then new +:+ replace_from old new (String.length old - 1) s'
          else String c (replace_from old new 0 s')
      end
  end.

(** [new] in front of every byte. *)
Fixpoint insert_before_each (new s : string) : string :=
  match s with
  | EmptyString => EmptyString
  | String c s' => new +:+ String c (insert_before_each new s')
  end.

(** [strings.ReplaceAll].  With an empty [old] Go inserts [new] in front of
    every UTF-8 sequence and at the end; the model does so in front of every
    byte, which is the same on ASCII text.  The workflow only ever passes the
    one-byte [old] that is the double-quote character. *)
Definition ReplaceAll (s old new : string) : string :=
  if String.eqb old new then s
  else match old with
       | EmptyString => insert_before_each new s +:+ new
       | String _ _ => replace_from old new 0 s
       end.

(** [tfexec.OutputMeta]; the two [json.RawMessage] fields are byte strings,
    and the zero value is what a map lookup of an absent key yields. *)
Record OutputMeta : Type := mkOutputMeta {
  Sensitive : bool;
  Type_ : string;
  Value : string
}.

Definition OutputMeta_zero : OutputMeta :=
  {| Sensitive := false; Type_ := ""; Value := "" |}.

(** [output[key]] on a Go map. *)
Definition index (output : gmap string OutputMeta) (key : string) : OutputMeta :=
  default OutputMeta_zero (output !! key).

(** The struct [vpc]. *)
Record vpc : Type := mkVpc {
  privateSubnet : string;
  publicSubnet : string;
  nodePrivateSubnet : string
}.

(** ** Calls and traces *)

(** The calls the workflow makes outside of itself, with their arguments.  A
    file handle is identified with the path it was opened or created at, a
    reader with the bytes it yields, and a [tfexec.Var] option with its
    assignment text.  [CallOpen] carries the bytes of the file that was
    opened and [CallOutput] the mapping that the call returned. *)
Inductive Call : Type :=
  | CallNew (workingDir : string)
  | CallSetEnvVars (env : gmap string string)
  | CallOpen (name : string) (data : string)
  | CallCreate (name : string)
  | CallCopy (dst : string) (data : string)
  | CallClose (name : string)
  | CallInit
  | CallPlan (vars : list string)
  | CallApply
  | CallOutput (output : gmap string OutputMeta)
  | CallDestroy (vars : list string)
  | CallUninstall
  | CallLogInfo (msg : string) (keysAndValues : list string).

(** A call together with the error it returned. *)
Record Event : Type := mkEvent {
  call : Call;
  failure : error
}.

Definition is_uninstall (ev : Event) : bool :=
  match call ev with CallUninstall => true | _ => false end.

(** The steps of the create and delete sequences: everything but the deferred
    clean-up calls and the log lines. *)
Definition is_step (c : Call) : bool :=
  match c with
  | CallClose _ | CallUninstall | CallLogInfo _ _ => false
  | _ => true
  end.

(** How often [Uninstall] was called. *)
Definition uninstall_count (tr : list Event) : nat :=
  length (filter (fun ev => is_uninstall ev = true) tr).

(** ** The collaborators *)

(** The runner of [internal/terraform], the asset file system [FS] of the
    package and the file operations of [os] and [io], over a world state [W];
    [R] is the runner handle that [terraform.New] returns.  Every operation
    returns what the Go function returns, and the world after it; [FS_Open]
    returns the bytes that the reader it opened yields. *)
Record Tool (W R : Type) : Type := mkTool {
  terraform_New : string -> W -> R * error * W;
  tf_SetEnvVars : R -> gmap string string -> W -> error * W;
  tf_Init : R -> W -> error * W;
  tf_Plan : R -> list string -> W -> error * W;
  tf_Apply : R -> W -> error * W;
  tf_Output : R -> W -> gmap string OutputMeta * error * W;
  tf_Destroy : R -> list string -> W -> error * W;
  tf_Uninstall : R -> W -> error * W;
  FS_Open : string -> W -> string * error * W;
  os_Create : string -> W -> error * W;
  io_Copy : string -> string -> W -> error * W;
  File_Close : string -> W -> error * W
}.

Arguments terraform_New {W R}.
Arguments tf_SetEnvVars {W R}.
Arguments tf_Init {W R}.
Arguments tf_Plan {W R}.
Arguments tf_Apply {W R}.
Arguments tf_Output {W R}.
Arguments tf_Destroy {W R}.
Arguments tf_Uninstall {W R}.
Arguments FS_Open {W R}.
Arguments os_Create {W R}.
Arguments io_Copy {W R}.
Arguments File_Close {W R}.

(** The constants of package [rosa] that the file uses and that are declared
    in other files: the three logger keys. *)
Record Package : Type := mkPackage {
  clusterNameLoggerKey : string;
  awsRegionLoggerKey : string;
  terraformWorkingDirLoggerKey : string
}.

(** ** Computations that call out *)

(** A computation reads and writes the world and emits the events of the
    calls it made, in order. *)
Definition M (W A : Type) : Type := W -> A * W * list Event.

#[export] Instance M_ret {W} : MRet (M W) := fun A a w => (a, w, []).

#[export] Instance M_bind {W} : MBind (M W) := fun A B k m w =>
  let '(a, w1, t1) := m w in
  let '(b, w2, t2) := k a w1 in
  (b, w2, t1 ++ t2).

(** A call that returns an error only. *)
Definition invoke {W} (c : Call) (op : W -> error * W) : M W error :=
  fun w => let '(err, w') := op w in (err, w', [mkEvent c err]).

(** A call that returns a value and an error; the event may record the
    value. *)
Definition invoke_with {W A} (c : A -> Call) (op : W -> A * error * W) : M W (A * error) :=
  fun w => let '(a, err, w') := op w in ((a, err), w', [mkEvent (c a) err]).

(** [defer]: [deferred] runs when [body] has returned, and what [body]
    returned is what the function returns. *)
Definition defer {W A} (deferred : M W unit) (body : M W A) : M W A :=
  a ← body; _ ← deferred; mret a.

(** The result, final world and trace of a computation. *)
Definition result {W A} (x : A * W * list Event) : A := x.1.1.
Definition world {W A} (x : A * W * list Event) : W := x.1.2.
Definition trace {W A} (x : A * W * list Event) : list Event := x.2.

(** ** The workflow *)

Section Workflow.
Context {W R Provider : Type}.
Variable T : Tool W R.
Variable pkg : Package.
(** [r.awsCredentials.CredentialsAsMap()] of the receiver [r]. *)
Variable CredentialsAsMap : Provider -> gmap string string.

(** [r.log.Info]: it returns nothing; the line is kept in the trace. *)
Definition log_Info (msg : string) (keysAndValues : list string) : M W unit :=
  fun w => (tt, w, [mkEvent (CallLogInfo msg keysAndValues) None]).

(** [copyFile]: the two deferred [Close] calls run last opened first, and
    their errors are dropped. *)
Definition copyFile (srcFile destFile : string) : M W error :=
  '(srcReader, err) ← invoke_with (CallOpen srcFile) (FS_Open T srcFile);
  if err is Some e then
    mret (Some (Errorf_w ("error opening " +:+ srcFile +:+ " file: ") e))
  else
  defer (_ ← invoke (CallClose srcFile) (File_Close T srcFile); mret tt) (
    err ← invoke (CallCreate destFile) (os_Create T destFile);
    if err is Some e then
      mret (Some (Errorf_w ("error creating runtime " +:+ destFile +:+ " file: ") e))
    else
    defer (_ ← invoke (CallClose destFile) (File_Close T destFile); mret tt) (
      err ← invoke (CallCopy destFile srcReader) (io_Copy T destFile srcReader);
      if err is Some e then
        mret (Some (Errorf_w "error copying source file to destination file: " e))
      else
      mret None)).

(** [createHostedControlPlaneVPC]. *)
Definition createHostedControlPlaneVPC (r : Provider)
    (clusterName awsRegion workingDir : string) : M W (option vpc * error) :=
  let action := "create" in
  if String.eqb clusterName "" || String.eqb awsRegion "" || String.eqb workingDir "" then
    mret (None, Some (hcpVPCError action (Some (errorString "one or more parameters is empty"))))
  else
  '(tf, err) ← invoke_with (fun _ => CallNew workingDir) (terraform_New T workingDir);
  if err is Some _ then
    mret (None, Some (hcpVPCError action (Some (Errorf_v "failed to construct terraform runner: " err))))
  else
  err ← invoke (CallSetEnvVars (CredentialsAsMap r)) (tf_SetEnvVars T tf (CredentialsAsMap r));
  if err is Some _ then
    mret (None, Some (hcpVPCError action (Some (Errorf_v "failed to set terraform runner aws credentials (env vars): " err))))
  else
  defer (_ ← invoke CallUninstall (tf_Uninstall T tf); mret tt) (
    _ ← log_Info "Creating aws vpc"
          [clusterNameLoggerKey pkg; clusterName; awsRegionLoggerKey pkg; awsRegion];
    err ← copyFile "assets/setup-hcp-vpc.tf" (workingDir +:+ "/setup-hcp-vpc.tf");
    if err is Some _ then
      mret (None, Some (hcpVPCError action (Some (Errorf_v "failed to copy terraform file to working directory: " err))))
    else
    err ← invoke CallInit (tf_Init T tf);
    if err is Some _ then
      mret (None, Some (hcpVPCError action (Some (Errorf_v "failed to perform terraform init: " err))))
    else
    let vars := ["aws_region=" +:+ awsRegion; "cluster_name=" +:+ clusterName] in
    err ← invoke (CallPlan vars) (tf_Plan T tf vars);
    if err is Some _ then
      mret (None, Some (hcpVPCError action (Some (Errorf_v "failed to perform terraform plan: " err))))
    else
    err ← invoke CallApply (tf_Apply T tf);
    if err is Some _ then
      mret (None, Some (hcpVPCError action (Some (Errorf_v "failed to perform terraform apply: " err))))
    else
    '(output, err) ← invoke_with CallOutput (tf_Output T tf);
    if err is Some _ then
      mret (None, Some (hcpVPCError action (Some (Errorf_v "failed to perform terraform output: " err))))
    else
    let vpc := {|
      privateSubnet :=
        ReplaceAll (Value (index output "cluster-private-subnet")) (String dquote "") "";
      publicSubnet :=
        ReplaceAll (Value (index output "cluster-public-subnet")) (String dquote "") "";
      nodePrivateSubnet :=
        ReplaceAll (Value (index output "node-private-subnet")) (String dquote "") "" |} in
    _ ← log_Info "AWS vpc created!"
          [clusterNameLoggerKey pkg; clusterName; terraformWorkingDirLoggerKey pkg; workingDir];
    mret (Some vpc, err)).

(** [deleteHostedControlPlaneVPC]. *)
Definition deleteHostedControlPlaneVPC (r : Provider)
    (clusterName awsRegion workingDir : string) : M W error :=
  let action := "delete" in
  if String.eqb clusterName "" || String.eqb awsRegion "" || String.eqb workingDir "" then
    mret (Some (hcpVPCError action (Some (errorString "one or more parameters is empty"))))
  else
  '(tf, err) ← invoke_with (fun _ => CallNew workingDir) (terraform_New T workingDir);
  if err is Some _ then
    mret (Some (hcpVPCError action (Some (Errorf_v "failed to construct terraform runner: " err))))
  else
  err ← invoke (CallSetEnvVars (CredentialsAsMap r)) (tf_SetEnvVars T tf (CredentialsAsMap r));
  if err is Some _ then
    mret (Some (hcpVPCError action (Some (Errorf_v "failed to set terraform runner aws credentials (env vars): " err))))
  else
  defer (_ ← invoke CallUninstall (tf_Uninstall T tf); mret tt) (
    _ ← log_Info "Deleting aws vpc"
          [clusterNameLoggerKey pkg; clusterName; awsRegionLoggerKey pkg; awsRegion;
           terraformWorkingDirLoggerKey pkg; workingDir];
    err ← invoke CallInit (tf_Init T tf);
    if err is Some _ then
      mret (Some (hcpVPCError action (Some (Errorf_v "failed to perform terraform init: " err))))
    else
    let vars := ["aws_region=" +:+ awsRegion; "cluster_name=" +:+ clusterName] in
    err ← invoke (CallDestroy vars) (tf_Destroy T tf vars);
    if err is Some _ then
      mret (Some (hcpVPCError action (Some (Errorf_v "failed to perform terraform destroy: " err))))
    else
    _ ← log_Info "AWS vpc deleted!" [clusterNameLoggerKey pkg; clusterName];
    mret err).
End Workflow.

(** ** The runs of the workflow *)

(** Every run of create and of delete takes one of a few paths; the relations
    below list them with the value returned and the calls made, and
    [create_run_sound] and [delete_run_sound] show that the functions take no
    other. *)
Section Runs.
Variable pkg : Package.
Variable creds : gmap string string.
Variables clusterName awsRegion workingDir : string.

Definition ok (c : Call) : Event := mkEvent c None.

Definition asset : string := "assets/setup-hcp-vpc.tf".
Definition dest : string := workingDir +:+ "/setup-hcp-vpc.tf".
Definition tf_vars : list string :=
  ["aws_region=" +:+ awsRegion; "cluster_name=" +:+ clusterName].

(** The error value both functions build: the action and the text. *)
Definition tagged (action msg : string) : err_value :=
  hcpVPCError action (Some (errorString msg)).

Definition some_empty : Prop :=
  clusterName = "" ∨ awsRegion = "" ∨ workingDir = "".
Definition none_empty : Prop :=
  clusterName ≠ "" ∧ awsRegion ≠ "" ∧ workingDir ≠ "".

Definition vpc_of (output : gmap string OutputMeta) : vpc := {|
  privateSubnet :=
    ReplaceAll (Value (index output "cluster-private-subnet")) (String dquote "") "";
  publicSubnet :=
    ReplaceAll (Value (index output "cluster-public-subnet")) (String dquote "") "";
  nodePrivateSubnet :=
    ReplaceAll (Value (index output "node-private-subnet")) (String dquote "") "" |}.

(** The calls up to the first line of the log of create. *)
Definition entered : list Event :=
  [ok (CallNew workingDir); ok (CallSetEnvVars creds);
   ok (CallLogInfo "Creating aws vpc"
         [clusterNameLoggerKey pkg; clusterName; awsRegionLoggerKey pkg; awsRegion])].

(** The calls up to the return of a [copyFile] that succeeded; the two
    [Close] calls may have failed. *)
Definition copied (data : string) (closed closed_asset : error) : list Event :=
  entered ++
  [ok (CallOpen asset data); ok (CallCreate dest); ok (CallCopy dest data);
   mkEvent (CallClose dest) closed; mkEvent (CallClose asset) closed_asset].

Definition created_line : Event :=
  ok (CallLogInfo "AWS vpc created!"
        [clusterNameLoggerKey pkg; clusterName;
         terraformWorkingDirLoggerKey pkg; workingDir]).

Inductive create_run : option vpc * error -> list Event -> Prop :=
  | create_invalid :
      some_empty ->
      create_run (None, Some (tagged "create" "one or more parameters is empty")) []
  | create_new_fails e :
      none_empty ->
      create_run
        (None, Some (tagged "create" ("failed to construct terraform runner: " +:+ Error e)))
        [mkEvent (CallNew workingDir) (Some e)]
  | create_setenv_fails e :
      none_empty ->
      create_run
        (None, Some (tagged "create"
           ("failed to set terraform runner aws credentials (env vars): " +:+ Error e)))
        [ok (CallNew workingDir); mkEvent (CallSetEnvVars creds) (Some e)]
  | create_open_fails data e u :
      none_empty ->
      create_run
        (None, Some (tagged "create"
           ("failed to copy terraform file to working directory: " +:+
            ("error opening " +:+ asset +:+ " file: ") +:+ Error e)))
        (entered ++ [mkEvent (CallOpen asset data) (Some e); mkEvent CallUninstall u])
  | create_oscreate_fails data e closed u :
      none_empty ->
      create_run
        (None, Some (tagged "create"
           ("failed to copy terraform file to working directory: " +:+
            ("error creating runtime " +:+ dest +:+ " file: ") +:+ Error e)))
        (entered ++ [ok (CallOpen asset data); mkEvent (CallCreate dest) (Some e);
                     mkEvent (CallClose asset) closed; mkEvent CallUninstall u])
  | create_copy_fails data e closed closed_asset u :
      none_empty ->
      create_run
        (None, Some (tagged "create"
           ("failed to copy terraform file to working directory: " +:+
            "error copying source file to destination file: " +:+ Error e)))
        (entered ++ [ok (CallOpen asset data); ok (CallCreate dest);
                     mkEvent (CallCopy dest data) (Some e);
                     mkEvent (CallClose dest) closed; mkEvent (CallClose asset) closed_asset;
                     mkEvent CallUninstall u])
  | create_init_fails data closed closed_asset e u :
      none_empty ->
      create_run
        (None, Some (tagged "create" ("failed to perform terraform init: " +:+ Error e)))
        (copied data closed closed_asset ++ [mkEvent CallInit (Some e); mkEvent CallUninstall u])
  | create_plan_fails data closed closed_asset e u :
      none_empty ->
      create_run
        (None, Some (tagged "create" ("failed to perform terraform plan: " +:+ Error e)))
        (copied data closed closed_asset ++
         [ok CallInit; mkEvent (CallPlan tf_vars) (Some e); mkEvent CallUninstall u])
  | create_apply_fails data closed closed_asset e u :
      none_empty ->
      create_run
        (None, Some (tagged "create" ("failed to perform terraform apply: " +:+ Error e)))
        (copied data closed closed_asset ++
         [ok CallInit; ok (CallPlan tf_vars); mkEvent CallApply (Some e);
          mkEvent CallUninstall u])
  | create_output_fails data closed closed_asset output e u :
      none_empty ->
      create_run
        (None, Some (tagged "create" ("failed to perform terraform output: " +:+ Error e)))
        (copied data closed closed_asset ++
         [ok CallInit; ok (CallPlan tf_vars); ok CallApply;
          mkEvent (CallOutput output) (Some e); mkEvent CallUninstall u])
  | create_succeeds data closed closed_asset output u :
      none_empty ->
      create_run
        (Some (vpc_of output), None)
        (copied data closed closed_asset ++
         [ok CallInit; ok (CallPlan tf_vars); ok CallApply; ok (CallOutput output);
          created_line; mkEvent CallUninstall u]).

(** The calls up to the first line of the log of delete. *)
Definition entered_delete : list Event :=
  [ok (CallNew workingDir); ok (CallSetEnvVars creds);
   ok (CallLogInfo "Deleting aws vpc"
         [clusterNameLoggerKey pkg; clusterName; awsRegionLoggerKey pkg; awsRegion;
          terraformWorkingDirLoggerKey pkg; workingDir])].

Definition deleted_line : Event :=
  ok (CallLogInfo "AWS vpc deleted!" [clusterNameLoggerKey pkg; clusterName]).

Inductive delete_run : error -> list Event -> Prop :=
  | delete_invalid :
      some_empty ->
      delete_run (Some (tagged "delete" "one or more parameters is empty")) []
  | delete_new_fails e :
      none_empty ->
      delete_run
        (Some (tagged "delete" ("failed to construct terraform runner: " +:+ Error e)))
        [mkEvent (CallNew workingDir) (Some e)]
  | delete_setenv_fails e :
      none_empty ->
      delete_run
        (Some (tagged "delete"
           ("failed to set terraform runner aws credentials (env vars): " +:+ Error e)))
        [ok (CallNew workingDir); mkEvent (CallSetEnvVars creds) (Some e)]
  | delete_init_fails e u :
      none_empty ->
      delete_run
        (Some (tagged "delete" ("failed to perform terraform init: " +:+ Error e)))
        (entered_delete ++ [mkEvent CallInit (Some e); mkEvent CallUninstall u])
  | delete_destroy_fails e u :
      none_empty ->
      delete_run
        (Some (tagged "delete" ("failed to perform terraform destroy: " +:+ Error e)))
        (entered_delete ++
         [ok CallInit; mkEvent (CallDestroy tf_vars) (Some e); mkEvent CallUninstall u])
  | delete_succeeds u :
      none_empty ->
      delete_run None
        (entered_delete ++
         [ok CallInit; ok (CallDestroy tf_vars); deleted_line; mkEvent CallUninstall u]).
End Runs.

(** ** Notions the properties are stated with *)

(** A string with every double-quote byte taken out. *)
Fixpoint without_quotes (s : string) : string :=
  match s with
  | EmptyString => EmptyString
  | String c s' =>
      if Ascii.eqb c dquote then without_quotes s' else String c (without_quotes s')
  end.

(** The text that the workflow puts in front of the cause when the call [c]
    fails: the format strings of the source, with [copyFile]'s own text for
    the three calls it makes. *)
Definition failure_text (c : Call) : string :=
  match c with
  | CallNew _ => "failed to construct terraform runner: "
  | CallSetEnvVars _ => "failed to set terraform runner aws credentials (env vars): "
  | CallOpen name _ =>
      "failed to copy terraform file to working directory: " +:+
      "error opening " +:+ name +:+ " file: "
  | CallCreate name =>
      "failed to copy terraform file to working directory: " +:+
      "error creating runtime " +:+ name +:+ " file: "
  | CallCopy _ _ =>
      "failed to copy terraform file to working directory: " +:+
      "error copying source file to destination file: "
  | CallInit => "failed to perform terraform init: "
  | CallPlan _ => "failed to perform terraform plan: "
  | CallApply => "failed to perform terraform apply: "
  | CallOutput _ => "failed to perform terraform output: "
  | CallDestroy _ => "failed to perform terraform destroy: "
  | CallClose _ | CallUninstall | CallLogInfo _ _ => ""
  end.

(** The tool [T] with another [Uninstall]. *)
Definition with_Uninstall {W R} (T : Tool W R) (u : R -> W -> error * W) : Tool W R := {|
  terraform_New := terraform_New T;
  tf_SetEnvVars := tf_SetEnvVars T;
  tf_Init := tf_Init T;
  tf_Plan := tf_Plan T;
  tf_Apply := tf_Apply T;
  tf_Output := tf_Output T;
  tf_Destroy := tf_Destroy T;
  tf_Uninstall := u;
  FS_Open := FS_Open T;
  os_Create := os_Create T;
  io_Copy := io_Copy T;
  File_Close := File_Close T
|}.

(** The tool [T] whose [Uninstall] does to the world what that of [T] does
    and always returns nil. *)
Definition Uninstall_succeeds {W R} (T : Tool W R) : Tool W R :=
  with_Uninstall T (fun tf w => (None, (tf_Uninstall T tf w).2)).

(** The two entry points, to state what holds of both. *)
Inductive Workflow : Type := Create | Delete.

Definition action_of (wf : Workflow) : string :=
  match wf with Create => "create" | Delete => "delete" end.

Section Either.
Context {W R Provider : Type}.
Variable T : Tool W R.
Variable pkg : Package.
Variable CredentialsAsMap : Provider -> gmap string string.
Variable wf : Workflow.
Variable r : Provider.
Variables clusterName awsRegion workingDir : string.
Variable w : W.

(** The error that the call returns. *)
Definition returned_error : error :=
  match wf with
  | Create =>
      (result (createHostedControlPlaneVPC T pkg CredentialsAsMap r
                 clusterName awsRegion workingDir w)).2
  | Delete =>
      result (deleteHostedControlPlaneVPC T pkg CredentialsAsMap r
                clusterName awsRegion workingDir w)
  end.

(** The vpc that the call returns; delete returns none. *)
Definition returned_vpc : option vpc :=
  match wf with
  | Create =>
      (result (createHostedControlPlaneVPC T pkg CredentialsAsMap r
                 clusterName awsRegion workingDir w)).1
  | Delete => None
  end.

(** The calls that the call makes. *)
Definition calls_made : list Event :=
  match wf with
  | Create =>
      trace (createHostedControlPlaneVPC T pkg CredentialsAsMap r
               clusterName awsRegion workingDir w)
  | Delete =>
      trace (deleteHostedControlPlaneVPC T pkg CredentialsAsMap r
               clusterName awsRegion workingDir w)
  end.

(** The world that the call leaves. *)
Definition world_left : W :=
  match wf with
  | Create =>
      world (createHostedControlPlaneVPC T pkg CredentialsAsMap r
               clusterName awsRegion workingDir w)
  | Delete =>
      world (deleteHostedControlPlaneVPC T pkg CredentialsAsMap r
               clusterName awsRegion workingDir w)
  end.
End Either.

(** ** A test double *)

Module Mock.

(** What each operation of the double answers. *)
Record Script : Type := mkScript {
  new_err : error;
  setenv_err : error;
  create_err : error;
  copy_err : error;
  close_err : error;
  init_err : error;
  plan_err : error;
  apply_err : error;
  output_map : gmap string OutputMeta;
  output_err : error;
  destroy_err : error;
  uninstall_err : error
}.

Definition boom : err_value := errorString "boom".

Definition template : string := "resource aws_vpc main {}".

(** The files of the asset file system of the double. *)
Definition assets : gmap string string :=
  {["assets/setup-hcp-vpc.tf" := template]}.

(** The world of the double is the content of the files on disk:
    [os.Create] truncates, [io.Copy] writes the bytes it was given. *)
Definition tool (sc : Script) : Tool (gmap string string) unit := {|
  terraform_New := fun _ w => (tt, new_err sc, w);
  tf_SetEnvVars := fun _ _ w => (setenv_err sc, w);
  tf_Init := fun _ w => (init_err sc, w);
  tf_Plan := fun _ _ w => (plan_err sc, w);
  tf_Apply := fun _ w => (apply_err sc, w);
  tf_Output := fun _ w => (output_map sc, output_err sc, w);
  tf_Destroy := fun _ _ w => (destroy_err sc, w);
  tf_Uninstall := fun _ w => (uninstall_err sc, w);
  FS_Open := fun name w =>
    match assets !! name with
    | Some data => (data, None, w)
    | None => ("", Some (errorString ("open " +:+ name +:+ ": file does not exist")), w)
    end;
  os_Create := fun name w =>
    match create_err sc with
    | Some e => (Some e, w)
    | None => (None, <[name := ""]> w)
    end;
  io_Copy := fun dst data w =>
    match copy_err sc with
    | Some e => (Some e, w)
    | None => (None, <[dst := data]> w)
    end;
  File_Close := fun _ w => (close_err sc, w)
|}.

(** Every operation succeeds and [Output] returns nothing. *)
Definition all_ok : Script := {|
  new_err := None; setenv_err := None; create_err := None; copy_err := None;
  close_err := None; init_err := None; plan_err := None; apply_err := None;
  output_map := ∅; output_err := None; destroy_err := None;
  uninstall_err := None
|}.

Definition quoted (s : string) : string := String dquote (s +:+ String dquote "").

Definition raw (s : string) : OutputMeta :=
  {| Sensitive := false; Type_ := quoted "string"; Value := s |}.

(** The three subnets, as the tool prints them: JSON strings. *)
Definition subnets : gmap string OutputMeta :=
  <["cluster-private-subnet" := raw (quoted "10.0.1.0/24")]>
  (<["cluster-public-subnet" := raw (quoted "10.0.2.0/24")]>
  (<["node-private-subnet" := raw (quoted "10.0.3.0/24")]> ∅)).

Definition with_subnets : Script := {|
  new_err := None; setenv_err := None; create_err := None; copy_err := None;
  close_err := None; init_err := None; plan_err := None; apply_err := None;
  output_map := subnets; output_err := None; destroy_err := None;
  uninstall_err := None
|}.

(** [terraform.New] fails. *)
Definition new_fails : Script := {|
  new_err := Some boom; setenv_err := None; create_err := None; copy_err := None;
  close_err := None; init_err := None; plan_err := None; apply_err := None;
  output_map := subnets; output_err := None; destroy_err := None;
  uninstall_err := None
|}.

(** [SetEnvVars] fails. *)
Definition setenv_fails : Script := {|
  new_err := None; setenv_err := Some boom; create_err := None; copy_err := None;
  close_err := None; init_err := None; plan_err := None; apply_err := None;
  output_map := subnets; output_err := None; destroy_err := None;
  uninstall_err := None
|}.

(** [io.Copy] fails, and so does the [Close] of the file it wrote to. *)
Definition copy_fails : Script := {|
  new_err := None; setenv_err := None; create_err := None; copy_err := Some boom;
  close_err := Some (errorString "close failed"); init_err := None; plan_err := None;
  apply_err := None; output_map := subnets; output_err := None; destroy_err := None;
  uninstall_err := None
|}.

(** [Apply] fails. *)
Definition apply_fails : Script := {|
  new_err := None; setenv_err := None; create_err := None; copy_err := None;
  close_err := None; init_err := None; plan_err := None; apply_err := Some boom;
  output_map := subnets; output_err := None; destroy_err := None;
  uninstall_err := None
|}.


(** [Apply] fails with the error [e]. *)
Definition apply_fails_with (e : err_value) : Script := {|
  new_err := None; setenv_err := None; create_err := None; copy_err := None;
  close_err := None; init_err := None; plan_err := None; apply_err := Some e;
  output_map := subnets; output_err := None; destroy_err := None;
  uninstall_err := None
|}.

(** [Destroy] fails. *)
Definition destroy_fails : Script := {|
  new_err := None; setenv_err := None; create_err := None; copy_err := None;
  close_err := None; init_err := None; plan_err := None; apply_err := None;
  output_map := subnets; output_err := None; destroy_err := Some boom;
  uninstall_err := None
|}.

(** [Uninstall] fails, and nothing else. *)
Definition uninstall_fails : Script := {|
  new_err := None; setenv_err := None; create_err := None; copy_err := None;
  close_err := None; init_err := None; plan_err := None; apply_err := None;
  output_map := subnets; output_err := None; destroy_err := None;
  uninstall_err := Some boom
|}.

Definition package : Package := {|
  clusterNameLoggerKey := "cluster_name";
  awsRegionLoggerKey := "aws_region";
  terraformWorkingDirLoggerKey := "terraform_working_dir"
|}.

Definition credentials : gmap string string :=
  {["AWS_ACCESS_KEY_ID" := "AKIA"]}.

Definition create (sc : Script) (clusterName awsRegion workingDir : string) :=
  createHostedControlPlaneVPC (tool sc) package (fun _ : unit => credentials) tt
    clusterName awsRegion workingDir ∅.

Definition delete (sc : Script) (clusterName awsRegion workingDir : string) :=
  deleteHostedControlPlaneVPC (tool sc) package (fun _ : unit => credentials) tt
    clusterName awsRegion workingDir ∅.

Definition error_of (wf : Workflow) (sc : Script)
    (clusterName awsRegion workingDir : string) : error :=
  returned_error (tool sc) package (fun _ : unit => credentials) wf tt
    clusterName awsRegion workingDir ∅.

Definition vpc_from (wf : Workflow) (sc : Script)
    (clusterName awsRegion workingDir : string) : option vpc :=
  returned_vpc (tool sc) package (fun _ : unit => credentials) wf tt
    clusterName awsRegion workingDir ∅.

Definition calls (wf : Workflow) (sc : Script)
    (clusterName awsRegion workingDir : string) : list Event :=
  calls_made (tool sc) package (fun _ : unit => credentials) wf tt
    clusterName awsRegion workingDir ∅.

End Mock.

(** ** Notions for the further properties *)

(** [errors.Unwrap]: the result of the [Unwrap] method where the type has
    one.  The error of [fmt.Errorf] with [%w] has one; that of [errors.New]
    has none, and the source gives [hcpVPCError] the method [Error] only. *)
Definition Unwrap (e : err_value) : error :=
  match e with
  | wrapError _ err => Some err
  | errorString _ | hcpVPCError _ _ => None
  end.

(** The files that a trace opened or created with success, in order. *)
Definition opened (tr : list Event) : list string :=
  omap (fun ev =>
          match call ev, failure ev with
          | CallOpen name _, None | CallCreate name, None => Some name
          | _, _ => None
          end) tr.

(** The files that a trace closed, in order. *)
Definition closed (tr : list Event) : list string :=
  omap (fun ev => match call ev with CallClose name => Some name | _ => None end) tr.

(** The calls to the runner and to the logger: no file is touched. *)
Definition runner_call (c : Call) : bool :=
  match c with
  | CallNew _ | CallSetEnvVars _ | CallInit | CallDestroy _ | CallUninstall
  | CallLogInfo _ _ => true
  | _ => false
  end.

Definition is_destroy (c : Call) : bool :=
  match c with CallDestroy _ => true | _ => false end.

(** The last line that a workflow logs. *)
Definition closing_line (pkg : Package) (wf : Workflow)
    (clusterName workingDir : string) : Event :=
  match wf with
  | Create => created_line pkg clusterName workingDir
  | Delete => deleted_line pkg clusterName
  end.

(** A string without a double quote. *)
Definition quote_free (s : string) : Prop :=
  ∀ n : nat, String.get n s ≠ Some dquote.

(** The steps by kind, and the order in which each workflow is written to
    make them. *)
Inductive Step : Type :=
  | StepNew | StepSetEnvVars | StepOpen | StepCreate | StepCopy
  | StepInit | StepPlan | StepApply | StepOutput | StepDestroy.

Definition step_of (ev : Event) : option Step :=
  match call ev with
  | CallNew _ => Some StepNew
  | CallSetEnvVars _ => Some StepSetEnvVars
  | CallOpen _ _ => Some StepOpen
  | CallCreate _ => Some StepCreate
  | CallCopy _ _ => Some StepCopy
  | CallInit => Some StepInit
  | CallPlan _ => Some StepPlan
  | CallApply => Some StepApply
  | CallOutput _ => Some StepOutput
  | CallDestroy _ => Some StepDestroy
  | CallClose _ | CallUninstall | CallLogInfo _ _ => None
  end.

Definition sequence_of (wf : Workflow) : list Step :=
  match wf with
  | Create =>
      [StepNew; StepSetEnvVars; StepOpen; StepCreate; StepCopy;
       StepInit; StepPlan; StepApply; StepOutput]
  | Delete => [StepNew; StepSetEnvVars; StepInit; StepDestroy]
  end.

(** The arguments that a call of the workflow has, given the inputs. *)
Definition carries_inputs (creds : gmap string string)
    (clusterName awsRegion workingDir : string) (c : Call) : Prop :=
  match c with
  | CallNew dir => dir = workingDir
  | CallSetEnvVars env => env = creds
  | CallOpen name _ => name = "assets/setup-hcp-vpc.tf"
  | CallCreate name | CallCopy name _ => name = workingDir +:+ "/setup-hcp-vpc.tf"
  | CallClose name =>
      name = workingDir +:+ "/setup-hcp-vpc.tf" ∨ name = "assets/setup-hcp-vpc.tf"
  | CallPlan vars | CallDestroy vars =>
      vars = ["aws_region=" +:+ awsRegion; "cluster_name=" +:+ clusterName]
  | CallInit | CallApply | CallOutput _ | CallUninstall | CallLogInfo _ _ => True
  end.

(** ** Properties *)

Lemma some_empty_test (a b c : string) :
  String.eqb a "" || String.eqb b "" || String.eqb c "" = true ↔ some_empty a b c.
Proof.
  unfold some_empty.
  rewrite !orb_true_iff, !String.eqb_eq. tauto.
Qed.

Lemma none_empty_test (a b c : string) :
  String.eqb a "" || String.eqb b "" || String.eqb c "" = false ↔ none_empty a b c.
Proof.
  unfold none_empty.
  rewrite !orb_false_iff, !String.eqb_neq. tauto.
Qed.

(** Unfolds the plumbing of a computation. *)
Ltac unfold_run :=
  unfold result, trace, world, defer, copyFile, log_Info,
    invoke, invoke_with, mbind, M_bind, mret, M_ret; simpl.

(** Cases on the answer of the next call. *)
Ltac next_call :=
  match goal with
  | |- context [let '(_, _) := ?op ?w in _] =>
      let E := fresh "E" in destruct (op w) as [[? [?|]] ?] eqn:E; simpl
  | |- context [let '(_, _) := ?op ?w in _] =>
      let E := fresh "E" in destruct (op w) as [[?|] ?] eqn:E; simpl
  end.

Section Soundness.
Context {W R Provider : Type}.
Variable T : Tool W R.
Variable pkg : Package.
Variable CredentialsAsMap : Provider -> gmap string string.

Lemma create_run_sound (r : Provider) (clusterName awsRegion workingDir : string) (w : W) :
  let x := createHostedControlPlaneVPC T pkg CredentialsAsMap r
             clusterName awsRegion workingDir w in
  create_run pkg (CredentialsAsMap r) clusterName awsRegion workingDir
    (result x) (trace x).
Proof.
  intros x. subst x. unfold createHostedControlPlaneVPC.
  destruct (String.eqb clusterName "" || String.eqb awsRegion "" || String.eqb workingDir "")
    eqn:Hp.
  { apply some_empty_test in Hp. by constructor. }
  apply none_empty_test in Hp.
  unfold_run.
  repeat (next_call; unfold_run).
  all: by econstructor.
Qed.

Lemma delete_run_sound (r : Provider) (clusterName awsRegion workingDir : string) (w : W) :
  let x := deleteHostedControlPlaneVPC T pkg CredentialsAsMap r
             clusterName awsRegion workingDir w in
  delete_run pkg (CredentialsAsMap r) clusterName awsRegion workingDir
    (result x) (trace x).
Proof.
  intros x. subst x. unfold deleteHostedControlPlaneVPC.
  destruct (String.eqb clusterName "" || String.eqb awsRegion "" || String.eqb workingDir "")
    eqn:Hp.
  { apply some_empty_test in Hp. by constructor. }
  apply none_empty_test in Hp.
  unfold_run.
  repeat (next_call; unfold_run).
  all: by econstructor.
Qed.
End Soundness.

(** *** Strings *)

Lemma append_assoc (a b c : string) : (a +:+ b) +:+ c = a +:+ (b +:+ c).
Proof.
  induction a as [|x a IH]; [done|].
  change (String x ((a +:+ b) +:+ c) = String x (a +:+ (b +:+ c))).
  by f_equal.
Qed.

Lemma append_empty_l (s : string) : "" +:+ s = s.
Proof. done. Qed.

Lemma HasPrefix_empty (s : string) : HasPrefix s "" = true.
Proof. by destruct s. Qed.

Lemma replace_from_byte (q : ascii) (s : string) :
  replace_from (String q "") "" 0 s
  = (fix drop (s : string) : string :=
       match s with
       | EmptyString => EmptyString
       | String c s' => if Ascii.eqb c q then drop s' else String c (drop s')
       end) s.
Proof.
  induction s as [|c s IH]; [done|].
  cbn [replace_from HasPrefix String.length].
  rewrite HasPrefix_empty, andb_true_r.
  destruct (Ascii.eqb c q); simpl; rewrite ?append_empty_l; by rewrite IH.
Qed.

(** Replacing the double quote by nothing takes every double quote out. *)
Lemma ReplaceAll_dquote (s : string) :
  ReplaceAll s (String dquote "") "" = without_quotes s.
Proof.
  unfold ReplaceAll. cbn [String.eqb].
  rewrite replace_from_byte.
  induction s as [|c s IH]; [done|].
  cbn [without_quotes]. by rewrite IH.
Qed.

Lemma without_quotes_get (s : string) (n : nat) :
  String.get n (without_quotes s) ≠ Some dquote.
Proof.
  revert n. induction s as [|c s IH]; intros n; [done|].
  cbn [without_quotes].
  destruct (Ascii.eqb c dquote) eqn:Hc; [apply IH|].
  destruct n as [|n]; simpl; [|apply IH].
  intros [= ->]. by rewrite Ascii.eqb_refl in Hc.
Qed.

(** *** Lists of events *)

Lemma split_at_nil {A} (pre post : list A) (y : A) : [] = pre ++ y :: post → False.
Proof. by destruct pre. Qed.

Lemma split_at_cons {A} (x : A) (l pre post : list A) (y : A) :
  x :: l = pre ++ y :: post →
  (pre = [] ∧ y = x ∧ post = l) ∨ (∃ pre', pre = x :: pre' ∧ l = pre' ++ y :: post).
Proof.
  destruct pre as [|p pre]; simpl; intros [= -> ->]; [by left | right; by eexists].
Qed.

(** Every way to cut a list that is written out. *)
Ltac split_trace H :=
  repeat match type of H with
    | [] = _ ++ _ :: _ => by apply split_at_nil in H
    | _ :: _ = _ ++ _ :: _ =>
        apply split_at_cons in H as [(-> & -> & ->) | (? & -> & H)]; simpl in *
    end.

(** Membership in a list that is written out. *)
Ltac in_trace H :=
  rewrite ?elem_of_cons, elem_of_nil in H; destruct_or?; try done.

Ltac unfold_shapes :=
  unfold copied, entered, entered_delete, created_line, deleted_line, ok, tagged in *;
  simpl in *.

(** No run has both an empty parameter and none. *)
Ltac empty_clash :=
  match goal with
  | Hs : _ = "" ∨ _ = "" ∨ _ = "", Hn : none_empty _ _ _ |- _ =>
      destruct Hn as (? & ? & ?); destruct Hs as [?|[?|?]]; done
  end.

(** Brings in the run that a call takes, as [H]. *)
Ltac create_cases T pkg cam r cn rg wd w H :=
  pose proof (create_run_sound T pkg cam r cn rg wd w) as H; cbv zeta in H;
  revert H;
  destruct (createHostedControlPlaneVPC T pkg cam r cn rg wd w) as [[? ?] ?];
  unfold result, trace, world; simpl; intros H.

Ltac delete_cases T pkg cam r cn rg wd w H :=
  pose proof (delete_run_sound T pkg cam r cn rg wd w) as H; cbv zeta in H;
  revert H;
  destruct (deleteHostedControlPlaneVPC T pkg cam r cn rg wd w) as [[? ?] ?];
  unfold result, trace, world; simpl; intros H.

Section Properties.
Context {W R Provider : Type}.
Variable T : Tool W R.
Variable pkg : Package.
Variable CredentialsAsMap : Provider -> gmap string string.

Local Abbreviation create := (createHostedControlPlaneVPC T pkg CredentialsAsMap).
Local Abbreviation delete := (deleteHostedControlPlaneVPC T pkg CredentialsAsMap).
Local Abbreviation error_of := (returned_error T pkg CredentialsAsMap).
Local Abbreviation vpc_from := (returned_vpc T pkg CredentialsAsMap).
Local Abbreviation calls_of := (calls_made T pkg CredentialsAsMap).
Local Abbreviation world_after := (world_left T pkg CredentialsAsMap).

(** C2.  When the cluster name, the region or the working directory is the
    empty string, create and delete return the tagged error about an empty
    parameter, create returns no vpc, and no call at all has been made:
    the trace is empty and the world is as it was. *)
Theorem empty_parameter_rejected_first (wf : Workflow) (r : Provider)
    (clusterName awsRegion workingDir : string) (w : W) :
  clusterName = "" ∨ awsRegion = "" ∨ workingDir = "" →
  error_of wf r clusterName awsRegion workingDir w
    = Some (hcpVPCError (action_of wf)
              (Some (errorString "one or more parameters is empty")))
  ∧ vpc_from wf r clusterName awsRegion workingDir w = None
  ∧ calls_of wf r clusterName awsRegion workingDir w = []
  ∧ world_after wf r clusterName awsRegion workingDir w = w.
Proof.
  intros Hempty. apply some_empty_test in Hempty.
  unfold returned_error, returned_vpc, calls_made, world_left,
    createHostedControlPlaneVPC, deleteHostedControlPlaneVPC.
  rewrite Hempty. by destruct wf.
Qed.

(** C7.  Every error that create or delete returns is an [hcpVPCError]
    whose action is create for create and delete for delete, and its
    message is the action, then the fixed text, then the message of the
    cause. *)
Theorem returned_errors_are_tagged (wf : Workflow) (r : Provider)
    (clusterName awsRegion workingDir : string) (w : W) (e : err_value) :
  error_of wf r clusterName awsRegion workingDir w = Some e →
  ∃ cause,
    e = hcpVPCError (action_of wf) (Some cause)
    ∧ Error e = action_of wf +:+ " hcp cluster vpc failed: " +:+ Error cause.
Proof.
  destruct wf; unfold returned_error.
  - create_cases T pkg CredentialsAsMap r clusterName awsRegion workingDir w Hrun.
    destruct Hrun; simpl; intros [= <-]; by eexists.
  - delete_cases T pkg CredentialsAsMap r clusterName awsRegion workingDir w Hrun.
    destruct Hrun; intros [= <-]; by eexists.
Qed.

(** C1, as the code has it.  When the runner was constructed and took the
    credentials, Uninstall is called exactly once, and it is the last call
    of the run, whatever happens in between; when a parameter is empty or
    the construction of the runner fails, Uninstall is not called. *)
Theorem uninstall_once_after_setup (wf : Workflow) (r : Provider)
    (clusterName awsRegion workingDir : string) (w : W) :
  let tr := calls_of wf r clusterName awsRegion workingDir w in
  (ok (CallSetEnvVars (CredentialsAsMap r)) ∈ tr →
     uninstall_count tr = 1 ∧ ∃ u, last tr = Some (mkEvent CallUninstall u))
  ∧ ((clusterName = "" ∨ awsRegion = "" ∨ workingDir = "")
     ∨ (∃ e, mkEvent (CallNew workingDir) (Some e) ∈ tr) →
     uninstall_count tr = 0).
Proof.
  intros tr. subst tr.
  destruct wf; unfold calls_made;
    [create_cases T pkg CredentialsAsMap r clusterName awsRegion workingDir w Hrun
    |delete_cases T pkg CredentialsAsMap r clusterName awsRegion workingDir w Hrun].
  all: split.
  all: destruct Hrun; unfold_shapes.
  all: try (intros Hin; in_trace Hin; simplify_eq; (split; [done | by eexists])).
  all: try done.
  all: intros [Hempty | [e' Hin]]; [empty_clash | by in_trace Hin].
Qed.

(** C3.  When create succeeds and the output step returned a mapping that
    has the three subnet keys, the vpc returned holds the three values with
    every double quote taken out. *)
Theorem create_returns_unquoted_subnets (r : Provider)
    (clusterName awsRegion workingDir : string) (w : W)
    (output : gmap string OutputMeta) (private public node : OutputMeta) :
  let x := create r clusterName awsRegion workingDir w in
  (result x).2 = None →
  ok (CallOutput output) ∈ trace x →
  output !! "cluster-private-subnet" = Some private →
  output !! "cluster-public-subnet" = Some public →
  output !! "node-private-subnet" = Some node →
  (result x).1 = Some {|
    privateSubnet := without_quotes (Value private);
    publicSubnet := without_quotes (Value public);
    nodePrivateSubnet := without_quotes (Value node) |}.
Proof.
  intros x. subst x.
  create_cases T pkg CredentialsAsMap r clusterName awsRegion workingDir w Hrun.
  destruct Hrun; unfold_shapes; try done.
  intros _ Hin. in_trace Hin. simplify_eq.
  intros Hprivate Hpublic Hnode.
  unfold vpc_of, index. rewrite Hprivate, Hpublic, Hnode. simpl.
  by rewrite !ReplaceAll_dquote.
Qed.

(** C9.  When the output step succeeded, create returns a vpc and a nil
    error, and a key that the mapping lacks leaves its field empty. *)
Theorem missing_output_key_is_not_an_error (r : Provider)
    (clusterName awsRegion workingDir : string) (w : W)
    (output : gmap string OutputMeta) :
  let x := create r clusterName awsRegion workingDir w in
  ok (CallOutput output) ∈ trace x →
  ∃ v, result x = (Some v, None)
    ∧ (output !! "cluster-private-subnet" = None → privateSubnet v = "")
    ∧ (output !! "cluster-public-subnet" = None → publicSubnet v = "")
    ∧ (output !! "node-private-subnet" = None → nodePrivateSubnet v = "").
Proof.
  intros x. subst x.
  create_cases T pkg CredentialsAsMap r clusterName awsRegion workingDir w Hrun.
  destruct Hrun; unfold_shapes; intros Hin; in_trace Hin. simplify_eq.
  eexists. split; [done|].
  unfold vpc_of, index. simpl.
  repeat split; intros ->; done.
Qed.

(** C10.  No field of a vpc that create returns has a double quote at any
    position. *)
Theorem created_vpc_has_no_quote (r : Provider)
    (clusterName awsRegion workingDir : string) (w : W) (v : vpc) :
  (result (create r clusterName awsRegion workingDir w)).1 = Some v →
  ∀ n : nat,
    String.get n (privateSubnet v) ≠ Some dquote
    ∧ String.get n (publicSubnet v) ≠ Some dquote
    ∧ String.get n (nodePrivateSubnet v) ≠ Some dquote.
Proof.
  create_cases T pkg CredentialsAsMap r clusterName awsRegion workingDir w Hrun.
  destruct Hrun; unfold_shapes; try done.
  intros [= <-] n. unfold vpc_of. simpl.
  rewrite !ReplaceAll_dquote.
  repeat split; apply without_quotes_get.
Qed.

(** C5.  A create that succeeds has run these calls, each on the world that
    the call before it left: the runner is constructed and takes the
    credentials; the template is opened in the asset file system, the file
    in the working directory is created, the bytes that the template yields
    are copied into it, and both are closed; init runs on the world that the
    copy and the two closes left, and plan, apply and output follow, once
    each; Uninstall is last, and the world it leaves is the world that
    create leaves. *)
Theorem create_copies_template_before_init (r : Provider)
    (clusterName awsRegion workingDir : string) (w : W) :
  let x := create r clusterName awsRegion workingDir w in
  let dest := workingDir +:+ "/setup-hcp-vpc.tf" in
  let vars := ["aws_region=" +:+ awsRegion; "cluster_name=" +:+ clusterName] in
  (result x).2 = None →
  ∃ tf data closed closed_asset output uninstalled
    w1 w2 w3 w4 w5 w6 w7 w8 w9 w10 w11 w12,
    terraform_New T workingDir w = (tf, None, w1)
    ∧ tf_SetEnvVars T tf (CredentialsAsMap r) w1 = (None, w2)
    ∧ FS_Open T "assets/setup-hcp-vpc.tf" w2 = (data, None, w3)
    ∧ os_Create T dest w3 = (None, w4)
    ∧ io_Copy T dest data w4 = (None, w5)
    ∧ File_Close T dest w5 = (closed, w6)
    ∧ File_Close T "assets/setup-hcp-vpc.tf" w6 = (closed_asset, w7)
    ∧ tf_Init T tf w7 = (None, w8)
    ∧ tf_Plan T tf vars w8 = (None, w9)
    ∧ tf_Apply T tf w9 = (None, w10)
    ∧ tf_Output T tf w10 = (output, None, w11)
    ∧ tf_Uninstall T tf w11 = (uninstalled, w12)
    ∧ world x = w12
    ∧ trace x =
      [ ok (CallNew workingDir);
        ok (CallSetEnvVars (CredentialsAsMap r));
        ok (CallLogInfo "Creating aws vpc"
              [clusterNameLoggerKey pkg; clusterName; awsRegionLoggerKey pkg; awsRegion]);
        ok (CallOpen "assets/setup-hcp-vpc.tf" data);
        ok (CallCreate dest);
        ok (CallCopy dest data);
        mkEvent (CallClose dest) closed;
        mkEvent (CallClose "assets/setup-hcp-vpc.tf") closed_asset;
        ok CallInit;
        ok (CallPlan vars);
        ok CallApply;
        ok (CallOutput output);
        ok (CallLogInfo "AWS vpc created!"
              [clusterNameLoggerKey pkg; clusterName;
               terraformWorkingDirLoggerKey pkg; workingDir]);
        mkEvent CallUninstall uninstalled ].
Proof.
  intros x dest vars. subst x dest vars. unfold createHostedControlPlaneVPC.
  destruct (String.eqb clusterName "" || String.eqb awsRegion "" || String.eqb workingDir "");
    [done|].
  unfold_run.
  repeat (next_call; unfold_run); try done.
  all: intros _.
  all: eexists _, _, _, _, _, _, _, _, _, _, _, _, _, _, _, _, _, _.
  all: repeat (split; [first [reflexivity | eassumption]|]).
  all: done.
Qed.


(** C4, as the code has it.  In a create, a step that fails is the last step
    made: whatever follows it in the trace is deferred clean-up; and create
    returns no vpc and the error tagged create whose cause is a new text
    error, the text of that step followed by the message of the failure.
    In particular, when apply fails, output is not called and the cause
    reads: failed to perform terraform apply, then the message.  The failure
    itself is not kept: neither the error returned nor its cause unwraps to
    it. *)
Theorem create_aborts_at_first_failure (r : Provider)
    (clusterName awsRegion workingDir : string) (w : W) :
  let x := create r clusterName awsRegion workingDir w in
  (∀ (pre post : list Event) (ev : Event) (e : err_value),
     trace x = pre ++ ev :: post →
     is_step (call ev) = true →
     failure ev = Some e →
     Forall (λ later, is_step (call later) = false) post
     ∧ result x =
         (None, Some (hcpVPCError "create"
                        (Some (errorString (failure_text (call ev) +:+ Error e))))))
  ∧ (∀ e : err_value,
     mkEvent CallApply (Some e) ∈ trace x →
     (∀ later output, later ∈ trace x → call later ≠ CallOutput output)
     ∧ result x =
         (None, Some (hcpVPCError "create"
                        (Some (errorString
                                 ("failed to perform terraform apply: " +:+ Error e))))))
  ∧ (∀ err : err_value,
     (result x).2 = Some err →
     Unwrap err = None
     ∧ ∃ text, err = hcpVPCError "create" (Some (errorString text))
         ∧ Unwrap (errorString text) = None).
Proof.
  intros x. subst x.
  create_cases T pkg CredentialsAsMap r clusterName awsRegion workingDir w Hrun.
  split; [|split].
  - intros pre post ev e Hcut.
    destruct Hrun; unfold_shapes; split_trace Hcut; intros Hstep Hfail;
      simplify_eq; (split; [by repeat constructor|]).
    all: unfold asset, dest; try done.
    all: by rewrite ?append_assoc.
  - intros e Hin.
    destruct Hrun; unfold_shapes; in_trace Hin; simplify_eq.
    split; [|done].
    intros later output Hlater. by in_trace Hlater; simplify_eq.
  - intros err. destruct Hrun; simpl; intros [= <-]; (split; [done | by eexists]).
Qed.
(** C8.  When Uninstall fails, create and delete return what they return
    with an Uninstall that does the same to the world and succeeds. *)
Theorem cleanup_failure_is_discarded (wf : Workflow) (r : Provider)
    (clusterName awsRegion workingDir : string) (w : W) (e : err_value) :
  mkEvent CallUninstall (Some e) ∈ calls_of wf r clusterName awsRegion workingDir w →
  error_of wf r clusterName awsRegion workingDir w
    = returned_error (Uninstall_succeeds T) pkg CredentialsAsMap
        wf r clusterName awsRegion workingDir w
  ∧ vpc_from wf r clusterName awsRegion workingDir w
    = returned_vpc (Uninstall_succeeds T) pkg CredentialsAsMap
        wf r clusterName awsRegion workingDir w.
Proof.
  intros _.
  destruct wf;
    unfold returned_error, returned_vpc,
      createHostedControlPlaneVPC, deleteHostedControlPlaneVPC.
  all: destruct (String.eqb clusterName "" || String.eqb awsRegion "" || String.eqb workingDir "");
    [done|].
  all: unfold_run.
  all: repeat (next_call; unfold_run).
  all: done.
Qed.

End Properties.

(** ** The workflow on the test double *)

(** A membership in a trace of the double, by running it. *)
Ltac found := vm_compute; repeat constructor.

(** What a successful create returns and calls. *)
Example create_on_double :
  Mock.create Mock.with_subnets "c1" "us-east-1" "/tmp/wd"
  = ((Some {| privateSubnet := "10.0.1.0/24";
              publicSubnet := "10.0.2.0/24";
              nodePrivateSubnet := "10.0.3.0/24" |}, None),
     {["/tmp/wd/setup-hcp-vpc.tf" := Mock.template]},
     [ ok (CallNew "/tmp/wd");
       ok (CallSetEnvVars Mock.credentials);
       ok (CallLogInfo "Creating aws vpc" ["cluster_name"; "c1"; "aws_region"; "us-east-1"]);
       ok (CallOpen "assets/setup-hcp-vpc.tf" Mock.template);
       ok (CallCreate "/tmp/wd/setup-hcp-vpc.tf");
       ok (CallCopy "/tmp/wd/setup-hcp-vpc.tf" Mock.template);
       ok (CallClose "/tmp/wd/setup-hcp-vpc.tf");
       ok (CallClose "assets/setup-hcp-vpc.tf");
       ok CallInit;
       ok (CallPlan ["aws_region=us-east-1"; "cluster_name=c1"]);
       ok CallApply;
       ok (CallOutput Mock.subnets);
       ok (CallLogInfo "AWS vpc created!"
             ["cluster_name"; "c1"; "terraform_working_dir"; "/tmp/wd"]);
       ok CallUninstall ]).
Proof. vm_compute. repeat split; reflexivity. Qed.

(** The message of an error of delete. *)
Example delete_message_on_double :
  fmt_v (Mock.error_of Delete Mock.destroy_fails "c1" "us-east-1" "/tmp/wd")
  = "delete hcp cluster vpc failed: failed to perform terraform destroy: boom".
Proof. vm_compute. repeat split; reflexivity. Qed.

(** When the credentials are refused, the runner exists and is not
    uninstalled. *)
Example uninstall_skipped_when_credentials_fail :
  Mock.calls Create Mock.setenv_fails "c1" "us-east-1" "/tmp/wd"
  = [ok (CallNew "/tmp/wd"); mkEvent (CallSetEnvVars Mock.credentials) (Some Mock.boom)].
Proof. vm_compute. repeat split; reflexivity. Qed.

(** When the copy fails, the two files are closed, the destination first, the
    runner is uninstalled, and the three messages are chained. *)
Example create_when_copy_fails :
  let x := Mock.create Mock.copy_fails "c1" "us-east-1" "/tmp/wd" in
  trace x =
    [ ok (CallNew "/tmp/wd");
      ok (CallSetEnvVars Mock.credentials);
      ok (CallLogInfo "Creating aws vpc" ["cluster_name"; "c1"; "aws_region"; "us-east-1"]);
      ok (CallOpen "assets/setup-hcp-vpc.tf" Mock.template);
      ok (CallCreate "/tmp/wd/setup-hcp-vpc.tf");
      mkEvent (CallCopy "/tmp/wd/setup-hcp-vpc.tf" Mock.template) (Some Mock.boom);
      mkEvent (CallClose "/tmp/wd/setup-hcp-vpc.tf") (Some (errorString "close failed"));
      mkEvent (CallClose "assets/setup-hcp-vpc.tf") (Some (errorString "close failed"));
      ok CallUninstall ]
  ∧ (result x).1 = None
  ∧ fmt_v (result x).2 =
      "create hcp cluster vpc failed: failed to copy terraform file to working directory: error copying source file to destination file: boom".
Proof. vm_compute. repeat split; reflexivity. Qed.

(** C2 at an empty cluster name. *)
Lemma empty_parameter_rejected_first_witness :
  ("" = "" ∨ "us-east-1" = "" ∨ "/tmp/wd" = "")
  ∧ Mock.error_of Create Mock.all_ok "" "us-east-1" "/tmp/wd"
    = Some (hcpVPCError "create" (Some (errorString "one or more parameters is empty")))
  ∧ Mock.vpc_from Create Mock.all_ok "" "us-east-1" "/tmp/wd" = None
  ∧ Mock.calls Create Mock.all_ok "" "us-east-1" "/tmp/wd" = []
  ∧ world_left (Mock.tool Mock.all_ok) Mock.package (fun _ : unit => Mock.credentials)
      Create tt "" "us-east-1" "/tmp/wd" ∅ = ∅.
Proof.
  assert ("" = "" ∨ "us-east-1" = "" ∨ "/tmp/wd" = "") as Hempty by (by left).
  split; [exact Hempty|].
  exact (empty_parameter_rejected_first (Mock.tool Mock.all_ok) Mock.package
           (fun _ : unit => Mock.credentials) Create tt "" "us-east-1" "/tmp/wd" ∅ Hempty).
Defined.

(** C1 is not what the code does: with an empty cluster name neither create
    nor delete calls Uninstall. *)
Lemma uninstall_skipped_on_empty_parameter :
  uninstall_count (Mock.calls Create Mock.all_ok "" "us-east-1" "/tmp/wd") = 0
  ∧ uninstall_count (Mock.calls Delete Mock.all_ok "" "us-east-1" "/tmp/wd") = 0.
Proof. vm_compute. repeat split; reflexivity. Qed.

(** Nor when the runner cannot be constructed. *)
Example uninstall_skipped_when_new_fails :
  uninstall_count (Mock.calls Create Mock.new_fails "c1" "us-east-1" "/tmp/wd") = 0
  ∧ uninstall_count (Mock.calls Delete Mock.new_fails "c1" "us-east-1" "/tmp/wd") = 0.
Proof. vm_compute. repeat split; reflexivity. Qed.

(** C1, as the code has it, at a create whose apply fails. *)
Lemma uninstall_once_after_setup_witness :
  let tr := Mock.calls Create Mock.apply_fails "c1" "us-east-1" "/tmp/wd" in
  ok (CallSetEnvVars Mock.credentials) ∈ tr
  ∧ uninstall_count tr = 1
  ∧ ∃ u, last tr = Some (mkEvent CallUninstall u).
Proof.
  intros tr.
  assert (ok (CallSetEnvVars Mock.credentials) ∈ tr) as Hin by found.
  split; [exact Hin|].
  exact (proj1 (uninstall_once_after_setup (Mock.tool Mock.apply_fails) Mock.package
                  (fun _ : unit => Mock.credentials) Create tt "c1" "us-east-1" "/tmp/wd" ∅)
           Hin).
Defined.

(** C3 at the three quoted subnets. *)
Lemma create_returns_unquoted_subnets_witness :
  let x := Mock.create Mock.with_subnets "c1" "us-east-1" "/tmp/wd" in
  (result x).2 = None
  ∧ ok (CallOutput Mock.subnets) ∈ trace x
  ∧ Mock.subnets !! "cluster-private-subnet" = Some (Mock.raw (Mock.quoted "10.0.1.0/24"))
  ∧ Mock.subnets !! "cluster-public-subnet" = Some (Mock.raw (Mock.quoted "10.0.2.0/24"))
  ∧ Mock.subnets !! "node-private-subnet" = Some (Mock.raw (Mock.quoted "10.0.3.0/24"))
  ∧ (result x).1 = Some {| privateSubnet := "10.0.1.0/24";
                           publicSubnet := "10.0.2.0/24";
                           nodePrivateSubnet := "10.0.3.0/24" |}.
Proof.
  intros x.
  assert ((result x).2 = None) as Hok by (vm_compute; reflexivity).
  assert (ok (CallOutput Mock.subnets) ∈ trace x) as Hin by found.
  assert (Mock.subnets !! "cluster-private-subnet"
          = Some (Mock.raw (Mock.quoted "10.0.1.0/24"))) as H1 by (vm_compute; reflexivity).
  assert (Mock.subnets !! "cluster-public-subnet"
          = Some (Mock.raw (Mock.quoted "10.0.2.0/24"))) as H2 by (vm_compute; reflexivity).
  assert (Mock.subnets !! "node-private-subnet"
          = Some (Mock.raw (Mock.quoted "10.0.3.0/24"))) as H3 by (vm_compute; reflexivity).
  repeat (split; [assumption|]).
  exact (create_returns_unquoted_subnets (Mock.tool Mock.with_subnets) Mock.package
           (fun _ : unit => Mock.credentials) tt "c1" "us-east-1" "/tmp/wd" ∅
           Mock.subnets _ _ _ Hok Hin H1 H2 H3).
Defined.

(** C4 is not what the code does: the error of apply is not wrapped.  Two
    different errors of apply with one message, the second of which wraps a
    third, make create return the same value, and nothing unwraps from
    it. *)
Lemma create_error_does_not_wrap :
  let e1 := errorString "boom" in
  let e2 := wrapError "boom" (errorString "disk full") in
  let returned :=
    hcpVPCError "create"
      (Some (errorString "failed to perform terraform apply: boom")) in
  result (Mock.create (Mock.apply_fails_with e1) "c1" "us-east-1" "/tmp/wd")
    = (None, Some returned)
  ∧ result (Mock.create (Mock.apply_fails_with e2) "c1" "us-east-1" "/tmp/wd")
    = (None, Some returned)
  ∧ Unwrap e2 = Some (errorString "disk full")
  ∧ Unwrap returned = None
  ∧ Unwrap (errorString "failed to perform terraform apply: boom") = None.
Proof. vm_compute. repeat split; reflexivity. Qed.

(** C4, as the code has it, at a create whose apply fails. *)
Lemma create_aborts_at_first_failure_witness :
  let x := Mock.create Mock.apply_fails "c1" "us-east-1" "/tmp/wd" in
  let returned :=
    hcpVPCError "create"
      (Some (errorString "failed to perform terraform apply: boom")) in
  mkEvent CallApply (Some Mock.boom) ∈ trace x
  ∧ ((∀ later output, later ∈ trace x → call later ≠ CallOutput output)
     ∧ result x = (None, Some returned))
  ∧ (result x).2 = Some returned
  ∧ Unwrap returned = None
  ∧ ∃ text, returned = hcpVPCError "create" (Some (errorString text))
      ∧ Unwrap (errorString text) = None.
Proof.
  intros x returned.
  assert (mkEvent CallApply (Some Mock.boom) ∈ trace x) as Hin by found.
  assert ((result x).2 = Some returned) as Herr by (vm_compute; reflexivity).
  split; [exact Hin|].
  split; [|split; [exact Herr|]].
  - exact (proj1 (proj2 (create_aborts_at_first_failure (Mock.tool Mock.apply_fails)
                           Mock.package (fun _ : unit => Mock.credentials) tt
                           "c1" "us-east-1" "/tmp/wd" ∅))
             Mock.boom Hin).
  - exact (proj2 (proj2 (create_aborts_at_first_failure (Mock.tool Mock.apply_fails)
                           Mock.package (fun _ : unit => Mock.credentials) tt
                           "c1" "us-east-1" "/tmp/wd" ∅))
             returned Herr).
Defined.

(** C5 at a create that succeeds. *)
Lemma create_copies_template_before_init_witness :
  let x := Mock.create Mock.with_subnets "c1" "us-east-1" "/tmp/wd" in
  let tool := Mock.tool Mock.with_subnets in
  let dest := "/tmp/wd" +:+ "/setup-hcp-vpc.tf" in
  let vars := ["aws_region=" +:+ "us-east-1"; "cluster_name=" +:+ "c1"] in
  (result x).2 = None
  ∧ ∃ tf data closed closed_asset output uninstalled
      w1 w2 w3 w4 w5 w6 w7 w8 w9 w10 w11 w12,
      terraform_New tool "/tmp/wd" ∅ = (tf, None, w1)
      ∧ tf_SetEnvVars tool tf Mock.credentials w1 = (None, w2)
      ∧ FS_Open tool "assets/setup-hcp-vpc.tf" w2 = (data, None, w3)
      ∧ os_Create tool dest w3 = (None, w4)
      ∧ io_Copy tool dest data w4 = (None, w5)
      ∧ File_Close tool dest w5 = (closed, w6)
      ∧ File_Close tool "assets/setup-hcp-vpc.tf" w6 = (closed_asset, w7)
      ∧ tf_Init tool tf w7 = (None, w8)
      ∧ tf_Plan tool tf vars w8 = (None, w9)
      ∧ tf_Apply tool tf w9 = (None, w10)
      ∧ tf_Output tool tf w10 = (output, None, w11)
      ∧ tf_Uninstall tool tf w11 = (uninstalled, w12)
      ∧ world x = w12
      ∧ trace x =
        [ ok (CallNew "/tmp/wd");
          ok (CallSetEnvVars Mock.credentials);
          ok (CallLogInfo "Creating aws vpc"
                ["cluster_name"; "c1"; "aws_region"; "us-east-1"]);
          ok (CallOpen "assets/setup-hcp-vpc.tf" data);
          ok (CallCreate dest);
          ok (CallCopy dest data);
          mkEvent (CallClose dest) closed;
          mkEvent (CallClose "assets/setup-hcp-vpc.tf") closed_asset;
          ok CallInit;
          ok (CallPlan vars);
          ok CallApply;
          ok (CallOutput output);
          ok (CallLogInfo "AWS vpc created!"
                ["cluster_name"; "c1"; "terraform_working_dir"; "/tmp/wd"]);
          mkEvent CallUninstall uninstalled ].
Proof.
  intros x tool dest vars.
  assert ((result x).2 = None) as Hok by (vm_compute; reflexivity).
  split; [exact Hok|].
  exact (create_copies_template_before_init (Mock.tool Mock.with_subnets) Mock.package
           (fun _ : unit => Mock.credentials) tt "c1" "us-east-1" "/tmp/wd" ∅ Hok).
Defined.

(** On the double, the file in the working directory holds the bytes of the
    template when [copyFile] has returned, which is when init is called. *)
Example template_on_disk_after_copy :
  let x := copyFile (Mock.tool Mock.with_subnets)
             "assets/setup-hcp-vpc.tf" "/tmp/wd/setup-hcp-vpc.tf" ∅ in
  result x = None
  ∧ world x !! "/tmp/wd/setup-hcp-vpc.tf" = Some Mock.template
  ∧ Mock.assets !! "assets/setup-hcp-vpc.tf" = Some Mock.template.
Proof. vm_compute. repeat split; reflexivity. Qed.



(** C7 at a delete whose destroy fails. *)
Lemma returned_errors_are_tagged_witness :
  let e := hcpVPCError "delete"
             (Some (errorString "failed to perform terraform destroy: boom")) in
  Mock.error_of Delete Mock.destroy_fails "c1" "us-east-1" "/tmp/wd" = Some e
  ∧ ∃ cause,
      e = hcpVPCError "delete" (Some cause)
      ∧ Error e = "delete" +:+ " hcp cluster vpc failed: " +:+ Error cause.
Proof.
  intros e.
  assert (Mock.error_of Delete Mock.destroy_fails "c1" "us-east-1" "/tmp/wd" = Some e)
    as He by (vm_compute; reflexivity).
  split; [exact He|].
  exact (returned_errors_are_tagged (Mock.tool Mock.destroy_fails) Mock.package
           (fun _ : unit => Mock.credentials) Delete tt "c1" "us-east-1" "/tmp/wd" ∅ e He).
Defined.

(** C8 at a create whose Uninstall fails. *)
Lemma cleanup_failure_is_discarded_witness :
  mkEvent CallUninstall (Some Mock.boom)
    ∈ Mock.calls Create Mock.uninstall_fails "c1" "us-east-1" "/tmp/wd"
  ∧ Mock.error_of Create Mock.uninstall_fails "c1" "us-east-1" "/tmp/wd"
    = returned_error (Uninstall_succeeds (Mock.tool Mock.uninstall_fails)) Mock.package
        (fun _ : unit => Mock.credentials) Create tt "c1" "us-east-1" "/tmp/wd" ∅
  ∧ Mock.vpc_from Create Mock.uninstall_fails "c1" "us-east-1" "/tmp/wd"
    = returned_vpc (Uninstall_succeeds (Mock.tool Mock.uninstall_fails)) Mock.package
        (fun _ : unit => Mock.credentials) Create tt "c1" "us-east-1" "/tmp/wd" ∅.
Proof.
  assert (mkEvent CallUninstall (Some Mock.boom)
            ∈ Mock.calls Create Mock.uninstall_fails "c1" "us-east-1" "/tmp/wd")
    as Hin by found.
  split; [exact Hin|].
  exact (cleanup_failure_is_discarded (Mock.tool Mock.uninstall_fails) Mock.package
           (fun _ : unit => Mock.credentials) Create tt "c1" "us-east-1" "/tmp/wd" ∅
           Mock.boom Hin).
Defined.

(** What that create returns although Uninstall failed. *)
Example create_succeeds_although_uninstall_fails :
  Mock.error_of Create Mock.uninstall_fails "c1" "us-east-1" "/tmp/wd" = None
  ∧ Mock.vpc_from Create Mock.uninstall_fails "c1" "us-east-1" "/tmp/wd"
    = Some {| privateSubnet := "10.0.1.0/24";
              publicSubnet := "10.0.2.0/24";
              nodePrivateSubnet := "10.0.3.0/24" |}.
Proof. vm_compute. repeat split; reflexivity. Qed.

(** C9 at an output without any key. *)
Lemma missing_output_key_is_not_an_error_witness :
  let x := Mock.create Mock.all_ok "c1" "us-east-1" "/tmp/wd" in
  ok (CallOutput ∅) ∈ trace x
  ∧ ∃ v, result x = (Some v, None)
      ∧ ((∅ : gmap string OutputMeta) !! "cluster-private-subnet" = None
         → privateSubnet v = "")
      ∧ ((∅ : gmap string OutputMeta) !! "cluster-public-subnet" = None
         → publicSubnet v = "")
      ∧ ((∅ : gmap string OutputMeta) !! "node-private-subnet" = None
         → nodePrivateSubnet v = "").
Proof.
  intros x.
  assert (ok (CallOutput ∅) ∈ trace x) as Hin by found.
  split; [exact Hin|].
  exact (missing_output_key_is_not_an_error (Mock.tool Mock.all_ok) Mock.package
           (fun _ : unit => Mock.credentials) tt "c1" "us-east-1" "/tmp/wd" ∅ ∅ Hin).
Defined.

(** What that create returns. *)
Example create_without_output_keys :
  result (Mock.create Mock.all_ok "c1" "us-east-1" "/tmp/wd")
  = (Some {| privateSubnet := ""; publicSubnet := ""; nodePrivateSubnet := "" |}, None).
Proof. vm_compute. repeat split; reflexivity. Qed.

(** C10 at the three quoted subnets. *)
Lemma created_vpc_has_no_quote_witness :
  let v := {| privateSubnet := "10.0.1.0/24";
              publicSubnet := "10.0.2.0/24";
              nodePrivateSubnet := "10.0.3.0/24" |} in
  (result (Mock.create Mock.with_subnets "c1" "us-east-1" "/tmp/wd")).1 = Some v
  ∧ ∀ n : nat,
      String.get n (privateSubnet v) ≠ Some dquote
      ∧ String.get n (publicSubnet v) ≠ Some dquote
      ∧ String.get n (nodePrivateSubnet v) ≠ Some dquote.
Proof.
  intros v.
  assert ((result (Mock.create Mock.with_subnets "c1" "us-east-1" "/tmp/wd")).1 = Some v)
    as Hv by (vm_compute; reflexivity).
  split; [exact Hv|].
  exact (created_vpc_has_no_quote (Mock.tool Mock.with_subnets) Mock.package
           (fun _ : unit => Mock.credentials) tt "c1" "us-east-1" "/tmp/wd" ∅ v Hv).
Defined.

(** Quotes inside a value go too, not only a pair around it. *)
Example inner_quotes_are_removed :
  ReplaceAll (Mock.quoted ("10.0" +:+ String dquote ".1.0/24")) (String dquote "") ""
  = "10.0.1.0/24".
Proof. vm_compute. repeat split; reflexivity. Qed.

(** ** Further properties of the workflow *)

Lemma without_quotes_id (s : string) : quote_free s → without_quotes s = s.
Proof.
  induction s as [|c s IH]; intros Hfree; [done|].
  cbn [without_quotes].
  destruct (Ascii.eqb_spec c dquote) as [-> | _].
  - exfalso. by apply (Hfree 0).
  - f_equal. apply IH. intros n. apply (Hfree (S n)).
Qed.

Lemma without_quotes_append (a b : string) :
  without_quotes (a +:+ b) = without_quotes a +:+ without_quotes b.
Proof.
  induction a as [|c a IH]; [done|].
  change (String c a +:+ b) with (String c (a +:+ b)).
  cbn [without_quotes]. rewrite IH. by destruct (Ascii.eqb c dquote).
Qed.

(** Taking the quotes out of a quoted string gives the string back. *)
Lemma unquote_quoted (s : string) :
  quote_free s → ReplaceAll (Mock.quoted s) (String dquote "") "" = s.
Proof.
  intros Hfree. rewrite ReplaceAll_dquote. unfold Mock.quoted.
  cbn [without_quotes]. rewrite Ascii.eqb_refl, without_quotes_append.
  cbn [without_quotes]. rewrite Ascii.eqb_refl, without_quotes_id by done.
  clear Hfree. induction s as [|c s IH]; [done|].
  change (String c s +:+ "") with (String c (s +:+ "")). by rewrite IH.
Qed.

Section Further.
Context {W R Provider : Type}.
Variable T : Tool W R.
Variable pkg : Package.
Variable CredentialsAsMap : Provider -> gmap string string.

Local Abbreviation create := (createHostedControlPlaneVPC T pkg CredentialsAsMap).
Local Abbreviation delete := (deleteHostedControlPlaneVPC T pkg CredentialsAsMap).
Local Abbreviation error_of := (returned_error T pkg CredentialsAsMap).
Local Abbreviation calls_of := (calls_made T pkg CredentialsAsMap).

(** X1.  [copyFile] returns nil exactly when it opened the source, created
    the destination and copied into it the bytes that the source yields, and
    then closed the destination and the source; the two [Close] calls may
    have failed. *)
Theorem copyFile_succeeds_iff_copied (srcFile destFile : string) (w : W) :
  let x := copyFile T srcFile destFile w in
  result x = None ↔
  ∃ data closed_dest closed_src,
    trace x =
      [ ok (CallOpen srcFile data);
        ok (CallCreate destFile);
        ok (CallCopy destFile data);
        mkEvent (CallClose destFile) closed_dest;
        mkEvent (CallClose srcFile) closed_src ].
Proof.
  intros x. subst x. unfold_run. unfold ok.
  repeat (next_call; unfold_run).
  all: split; [intros Hnil | intros (data & c1 & c2 & Htr)]; simplify_eq.
  all: first [done | by eexists _, _, _].
Qed.

(** X2.  [copyFile] closes the files it opened or created, the last one
    first, whatever fails; and so does a create, which opens no other file. *)
Theorem opened_files_are_closed (r : Provider)
    (clusterName awsRegion workingDir srcFile destFile : string) (w : W) :
  closed (trace (copyFile T srcFile destFile w))
    = rev (opened (trace (copyFile T srcFile destFile w)))
  ∧ closed (trace (create r clusterName awsRegion workingDir w))
    = rev (opened (trace (create r clusterName awsRegion workingDir w))).
Proof.
  split.
  - unfold_run. by repeat (next_call; unfold_run).
  - create_cases T pkg CredentialsAsMap r clusterName awsRegion workingDir w Hrun.
    by destruct Hrun; unfold_shapes.
Qed.

(** X3.  An error of [copyFile] wraps the error of the call that failed:
    [errors.Unwrap] gives that error back, and the message ends with its
    message. *)
Theorem copyFile_error_wraps_cause (srcFile destFile : string) (w : W) (err : err_value) :
  let x := copyFile T srcFile destFile w in
  result x = Some err →
  ∃ c e text,
    mkEvent c (Some e) ∈ trace x
    ∧ is_step c = true
    ∧ Unwrap err = Some e
    ∧ Error err = text +:+ Error e.
Proof.
  intros x. subst x. unfold_run.
  repeat (next_call; unfold_run).
  all: intros [= <-]; eexists _, _, _.
  all: by (split; [repeat constructor|]).
Qed.

(** X4.  The cause inside an error of create or delete is a plain text
    error: the error of the tool, and the wrapping error of [copyFile], are
    flattened into the message, and [errors.Unwrap] of what is returned is
    nil. *)
Theorem returned_errors_carry_text_only (wf : Workflow) (r : Provider)
    (clusterName awsRegion workingDir : string) (w : W) (e : err_value) :
  error_of wf r clusterName awsRegion workingDir w = Some e →
  ∃ text, e = hcpVPCError (action_of wf) (Some (errorString text))
    ∧ Unwrap e = None
    ∧ Unwrap (errorString text) = None.
Proof.
  destruct wf; unfold returned_error.
  - create_cases T pkg CredentialsAsMap r clusterName awsRegion workingDir w Hrun.
    destruct Hrun; simpl; intros [= <-]; by eexists.
  - delete_cases T pkg CredentialsAsMap r clusterName awsRegion workingDir w Hrun.
    destruct Hrun; intros [= <-]; by eexists.
Qed.

(** X5.  In a delete, a step that fails is the last step made: only the
    deferred Uninstall follows, and delete returns the error tagged delete
    whose cause is the text of that step followed by the message of the
    failure. *)
Theorem delete_aborts_at_first_failure (r : Provider)
    (clusterName awsRegion workingDir : string) (w : W)
    (pre post : list Event) (ev : Event) (e : err_value) :
  let x := delete r clusterName awsRegion workingDir w in
  trace x = pre ++ ev :: post →
  is_step (call ev) = true →
  failure ev = Some e →
  Forall (λ later, is_step (call later) = false) post
  ∧ result x =
      Some (hcpVPCError "delete"
              (Some (errorString (failure_text (call ev) +:+ Error e)))).
Proof.
  intros x. subst x.
  delete_cases T pkg CredentialsAsMap r clusterName awsRegion workingDir w Hrun.
  intros Hcut.
  destruct Hrun; unfold_shapes; split_trace Hcut; intros Hstep Hfail;
    simplify_eq; (split; [by repeat constructor | done]).
Qed.

(** X6.  A delete calls the runner and the logger only: it opens, creates
    and copies no file, and makes no plan, apply or output call.  A create
    never calls destroy. *)
Theorem delete_touches_no_file (r : Provider)
    (clusterName awsRegion workingDir : string) (w : W) :
  Forall (λ ev, runner_call (call ev) = true)
    (trace (delete r clusterName awsRegion workingDir w))
  ∧ Forall (λ ev, is_destroy (call ev) = false)
      (trace (create r clusterName awsRegion workingDir w)).
Proof.
  split.
  - delete_cases T pkg CredentialsAsMap r clusterName awsRegion workingDir w Hrun.
    destruct Hrun; unfold_shapes; by repeat constructor.
  - create_cases T pkg CredentialsAsMap r clusterName awsRegion workingDir w Hrun.
    destruct Hrun; unfold_shapes; by repeat constructor.
Qed.

(** X7.  A create returns a vpc exactly when it returns a nil error. *)
Theorem create_returns_vpc_or_error (r : Provider)
    (clusterName awsRegion workingDir : string) (w : W) :
  let x := create r clusterName awsRegion workingDir w in
  is_Some (result x).1 ↔ (result x).2 = None.
Proof.
  intros x. subst x.
  create_cases T pkg CredentialsAsMap r clusterName awsRegion workingDir w Hrun.
  destruct Hrun; simpl; split; try done; by intros [? [=]].
Qed.

(** X8.  Create and delete return a nil error exactly when they made calls
    and every step they made succeeded; the deferred [Close] and Uninstall
    calls may have failed. *)
Theorem success_iff_every_step_succeeded (wf : Workflow) (r : Provider)
    (clusterName awsRegion workingDir : string) (w : W) :
  error_of wf r clusterName awsRegion workingDir w = None ↔
  calls_of wf r clusterName awsRegion workingDir w ≠ []
  ∧ Forall (λ ev, is_step (call ev) = true → failure ev = None)
      (calls_of wf r clusterName awsRegion workingDir w).
Proof.
  destruct wf; unfold returned_error, calls_made;
    [create_cases T pkg CredentialsAsMap r clusterName awsRegion workingDir w Hrun
    |delete_cases T pkg CredentialsAsMap r clusterName awsRegion workingDir w Hrun].
  all: destruct Hrun; unfold_shapes.
  all: split; [intros Hnil; try done | intros [Hcalls Hall]; try done].
  all: try (split; [done | by repeat constructor]).
  all: rewrite ?Forall_cons in Hall; destruct_and?; simpl in *.
  all: match goal with
       | H : true = true → Some _ = None |- _ => by specialize (H eq_refl)
       | H : [] ≠ [] |- _ => by destruct H
       end.
Qed.

(** X9.  When the output step returns the three subnets as quoted strings
    that hold no quote themselves, create returns the three strings. *)
Theorem create_unquotes_quoted_values (r : Provider)
    (clusterName awsRegion workingDir : string) (w : W)
    (output : gmap string OutputMeta) (private public node : string) :
  let x := create r clusterName awsRegion workingDir w in
  ok (CallOutput output) ∈ trace x →
  Value (index output "cluster-private-subnet") = Mock.quoted private →
  Value (index output "cluster-public-subnet") = Mock.quoted public →
  Value (index output "node-private-subnet") = Mock.quoted node →
  quote_free private → quote_free public → quote_free node →
  result x = (Some {| privateSubnet := private;
                      publicSubnet := public;
                      nodePrivateSubnet := node |}, None).
Proof.
  intros x. subst x.
  create_cases T pkg CredentialsAsMap r clusterName awsRegion workingDir w Hrun.
  destruct Hrun; unfold_shapes; intros Hin; in_trace Hin. simplify_eq.
  intros Hv1 Hv2 Hv3 Hprivate Hpublic Hnode.
  unfold vpc_of. rewrite Hv1, Hv2, Hv3. by rewrite !unquote_quoted.
Qed.

(** X10.  The closing line of the log is written exactly when the call
    returns a nil error. *)
Theorem closing_line_iff_success (wf : Workflow) (r : Provider)
    (clusterName awsRegion workingDir : string) (w : W) :
  error_of wf r clusterName awsRegion workingDir w = None ↔
  closing_line pkg wf clusterName workingDir
    ∈ calls_of wf r clusterName awsRegion workingDir w.
Proof.
  destruct wf; unfold returned_error, calls_made, closing_line;
    [create_cases T pkg CredentialsAsMap r clusterName awsRegion workingDir w Hrun
    |delete_cases T pkg CredentialsAsMap r clusterName awsRegion workingDir w Hrun].
  all: destruct Hrun; unfold_shapes.
  all: split; [intros Hnil; try done | intros Hin; try done].
  all: try (by repeat constructor).
  all: by in_trace Hin.
Qed.

(** X11.  The check of the parameters rejects the empty string and nothing
    else: no call is made exactly when a parameter is empty, and otherwise
    the first call constructs the runner on the working directory. *)
Theorem validation_rejects_empty_only (wf : Workflow) (r : Provider)
    (clusterName awsRegion workingDir : string) (w : W) :
  (calls_of wf r clusterName awsRegion workingDir w = []
   ↔ clusterName = "" ∨ awsRegion = "" ∨ workingDir = "")
  ∧ (∀ ev, head (calls_of wf r clusterName awsRegion workingDir w) = Some ev →
       call ev = CallNew workingDir).
Proof.
  destruct wf; unfold calls_made;
    [create_cases T pkg CredentialsAsMap r clusterName awsRegion workingDir w Hrun
    |delete_cases T pkg CredentialsAsMap r clusterName awsRegion workingDir w Hrun].
  all: destruct Hrun; unfold_shapes.
  all: split; [split; [intros Hnil; try done | intros Hempty; try done; empty_clash]
              | by intros ev [= <-]].
Qed.

(** X12.  When a step fails, the message of the error that create or delete
    returns is the action, the fixed text, the text of the step and the
    message of the failure. *)
Theorem returned_message_names_the_step (wf : Workflow) (r : Provider)
    (clusterName awsRegion workingDir : string) (w : W)
    (pre post : list Event) (ev : Event) (e : err_value) :
  calls_of wf r clusterName awsRegion workingDir w = pre ++ ev :: post →
  is_step (call ev) = true →
  failure ev = Some e →
  fmt_v (error_of wf r clusterName awsRegion workingDir w)
  = action_of wf +:+ " hcp cluster vpc failed: "
    +:+ failure_text (call ev) +:+ Error e.
Proof.
  destruct wf; unfold returned_error, calls_made;
    [create_cases T pkg CredentialsAsMap r clusterName awsRegion workingDir w Hrun
    |delete_cases T pkg CredentialsAsMap r clusterName awsRegion workingDir w Hrun].
  all: intros Hcut.
  all: destruct Hrun; unfold_shapes; split_trace Hcut; intros Hstep Hfail; simplify_eq.
  all: unfold asset, dest; by rewrite ?append_assoc.
Qed.

(** X13.  The steps that create and delete make are always an initial part
    of the sequence they are written in, each step once; when the call
    returns a nil error they are the whole sequence. *)
Theorem steps_follow_the_sequence (wf : Workflow) (r : Provider)
    (clusterName awsRegion workingDir : string) (w : W) :
  omap step_of (calls_of wf r clusterName awsRegion workingDir w)
    `prefix_of` sequence_of wf
  ∧ (error_of wf r clusterName awsRegion workingDir w = None
     → omap step_of (calls_of wf r clusterName awsRegion workingDir w) = sequence_of wf).
Proof.
  destruct wf; unfold returned_error, calls_made;
    [create_cases T pkg CredentialsAsMap r clusterName awsRegion workingDir w Hrun
    |delete_cases T pkg CredentialsAsMap r clusterName awsRegion workingDir w Hrun].
  all: destruct Hrun; unfold_shapes.
  all: split; [by eexists | done].
Qed.

(** X14.  Whichever way a run ends, every call it made has the arguments
    that the inputs give: the working directory, the credentials of the
    provider, the path of the asset, the path of the template in the working
    directory, and the two variables with the region first. *)
Theorem calls_carry_the_inputs (wf : Workflow) (r : Provider)
    (clusterName awsRegion workingDir : string) (w : W) :
  Forall (λ ev, carries_inputs (CredentialsAsMap r) clusterName awsRegion workingDir
                  (call ev))
    (calls_of wf r clusterName awsRegion workingDir w).
Proof.
  destruct wf; unfold calls_made;
    [create_cases T pkg CredentialsAsMap r clusterName awsRegion workingDir w Hrun
    |delete_cases T pkg CredentialsAsMap r clusterName awsRegion workingDir w Hrun].
  all: destruct Hrun; unfold_shapes; unfold asset, dest.
  all: repeat (constructor; [simpl; by auto|]).
  all: constructor.
Qed.
End Further.

(** X3 at a copy that fails. *)
Lemma copyFile_error_wraps_cause_witness :
  let x := copyFile (Mock.tool Mock.copy_fails)
             "assets/setup-hcp-vpc.tf" "/tmp/wd/setup-hcp-vpc.tf" ∅ in
  let err := wrapError "error copying source file to destination file: boom" Mock.boom in
  result x = Some err
  ∧ ∃ c e text,
      mkEvent c (Some e) ∈ trace x
      ∧ is_step c = true
      ∧ Unwrap err = Some e
      ∧ Error err = text +:+ Error e.
Proof.
  intros x err.
  assert (result x = Some err) as Herr by (vm_compute; reflexivity).
  split; [exact Herr|].
  exact (copyFile_error_wraps_cause (Mock.tool Mock.copy_fails)
           "assets/setup-hcp-vpc.tf" "/tmp/wd/setup-hcp-vpc.tf" ∅ err Herr).
Defined.

(** X4 at a create whose copy fails. *)
Lemma returned_errors_carry_text_only_witness :
  let e := hcpVPCError "create"
             (Some (errorString
                "failed to copy terraform file to working directory: error copying source file to destination file: boom")) in
  Mock.error_of Create Mock.copy_fails "c1" "us-east-1" "/tmp/wd" = Some e
  ∧ ∃ text, e = hcpVPCError "create" (Some (errorString text))
      ∧ Unwrap e = None
      ∧ Unwrap (errorString text) = None.
Proof.
  intros e.
  assert (Mock.error_of Create Mock.copy_fails "c1" "us-east-1" "/tmp/wd" = Some e)
    as He by (vm_compute; reflexivity).
  split; [exact He|].
  exact (returned_errors_carry_text_only (Mock.tool Mock.copy_fails) Mock.package
           (fun _ : unit => Mock.credentials) Create tt "c1" "us-east-1" "/tmp/wd" ∅ e He).
Defined.

(** X5 at a delete whose destroy fails. *)
Lemma delete_aborts_at_first_failure_witness :
  let x := Mock.delete Mock.destroy_fails "c1" "us-east-1" "/tmp/wd" in
  let pre :=
    [ ok (CallNew "/tmp/wd");
      ok (CallSetEnvVars Mock.credentials);
      ok (CallLogInfo "Deleting aws vpc"
            ["cluster_name"; "c1"; "aws_region"; "us-east-1";
             "terraform_working_dir"; "/tmp/wd"]);
      ok CallInit ] in
  let ev :=
    mkEvent (CallDestroy ["aws_region=us-east-1"; "cluster_name=c1"]) (Some Mock.boom) in
  let post := [ok CallUninstall] in
  trace x = pre ++ ev :: post
  ∧ is_step (call ev) = true
  ∧ failure ev = Some Mock.boom
  ∧ Forall (λ later, is_step (call later) = false) post
  ∧ result x =
      Some (hcpVPCError "delete"
              (Some (errorString (failure_text (call ev) +:+ Error Mock.boom)))).
Proof.
  intros x pre ev post.
  assert (trace x = pre ++ ev :: post) as Hcut by (vm_compute; reflexivity).
  assert (is_step (call ev) = true) as Hstep by reflexivity.
  assert (failure ev = Some Mock.boom) as Hfail by reflexivity.
  repeat (split; [assumption|]).
  exact (delete_aborts_at_first_failure (Mock.tool Mock.destroy_fails) Mock.package
           (fun _ : unit => Mock.credentials) tt "c1" "us-east-1" "/tmp/wd" ∅
           pre post ev Mock.boom Hcut Hstep Hfail).
Defined.

Lemma quote_free_subnet (s : string) :
  without_quotes s = s → quote_free s.
Proof. intros <-. intros n. apply without_quotes_get. Qed.

(** X9 at the three quoted subnets. *)
Lemma create_unquotes_quoted_values_witness :
  let x := Mock.create Mock.with_subnets "c1" "us-east-1" "/tmp/wd" in
  ok (CallOutput Mock.subnets) ∈ trace x
  ∧ Value (index Mock.subnets "cluster-private-subnet") = Mock.quoted "10.0.1.0/24"
  ∧ Value (index Mock.subnets "cluster-public-subnet") = Mock.quoted "10.0.2.0/24"
  ∧ Value (index Mock.subnets "node-private-subnet") = Mock.quoted "10.0.3.0/24"
  ∧ quote_free "10.0.1.0/24" ∧ quote_free "10.0.2.0/24" ∧ quote_free "10.0.3.0/24"
  ∧ result x = (Some {| privateSubnet := "10.0.1.0/24";
                        publicSubnet := "10.0.2.0/24";
                        nodePrivateSubnet := "10.0.3.0/24" |}, None).
Proof.
  intros x.
  assert (ok (CallOutput Mock.subnets) ∈ trace x) as Hin by found.
  assert (Value (index Mock.subnets "cluster-private-subnet") = Mock.quoted "10.0.1.0/24")
    as H1 by (vm_compute; reflexivity).
  assert (Value (index Mock.subnets "cluster-public-subnet") = Mock.quoted "10.0.2.0/24")
    as H2 by (vm_compute; reflexivity).
  assert (Value (index Mock.subnets "node-private-subnet") = Mock.quoted "10.0.3.0/24")
    as H3 by (vm_compute; reflexivity).
  assert (quote_free "10.0.1.0/24") as F1 by (apply quote_free_subnet; reflexivity).
  assert (quote_free "10.0.2.0/24") as F2 by (apply quote_free_subnet; reflexivity).
  assert (quote_free "10.0.3.0/24") as F3 by (apply quote_free_subnet; reflexivity).
  repeat (split; [assumption|]).
  exact (create_unquotes_quoted_values (Mock.tool Mock.with_subnets) Mock.package
           (fun _ : unit => Mock.credentials) tt "c1" "us-east-1" "/tmp/wd" ∅
           Mock.subnets _ _ _ Hin H1 H2 H3 F1 F2 F3).
Defined.

(** X12 at a create whose apply fails. *)
Lemma returned_message_names_the_step_witness :
  let pre :=
    [ ok (CallNew "/tmp/wd");
      ok (CallSetEnvVars Mock.credentials);
      ok (CallLogInfo "Creating aws vpc" ["cluster_name"; "c1"; "aws_region"; "us-east-1"]);
      ok (CallOpen "assets/setup-hcp-vpc.tf" Mock.template);
      ok (CallCreate "/tmp/wd/setup-hcp-vpc.tf");
      ok (CallCopy "/tmp/wd/setup-hcp-vpc.tf" Mock.template);
      ok (CallClose "/tmp/wd/setup-hcp-vpc.tf");
      ok (CallClose "assets/setup-hcp-vpc.tf");
      ok CallInit;
      ok (CallPlan ["aws_region=us-east-1"; "cluster_name=c1"]) ] in
  let ev := mkEvent CallApply (Some Mock.boom) in
  let post := [ok CallUninstall] in
  Mock.calls Create Mock.apply_fails "c1" "us-east-1" "/tmp/wd" = pre ++ ev :: post
  ∧ is_step (call ev) = true
  ∧ failure ev = Some Mock.boom
  ∧ fmt_v (Mock.error_of Create Mock.apply_fails "c1" "us-east-1" "/tmp/wd")
    = "create" +:+ " hcp cluster vpc failed: "
      +:+ "failed to perform terraform apply: " +:+ "boom".
Proof.
  intros pre ev post.
  assert (Mock.calls Create Mock.apply_fails "c1" "us-east-1" "/tmp/wd" = pre ++ ev :: post)
    as Hcut by (vm_compute; reflexivity).
  assert (is_step (call ev) = true) as Hstep by reflexivity.
  assert (failure ev = Some Mock.boom) as Hfail by reflexivity.
  repeat (split; [assumption|]).
  exact (returned_message_names_the_step (Mock.tool Mock.apply_fails) Mock.package
           (fun _ : unit => Mock.credentials) Create tt "c1" "us-east-1" "/tmp/wd" ∅
           pre post ev Mock.boom Hcut Hstep Hfail).
Defined.
